(** * The package-manager recipe of aos_core_lib_cpp (conan/conanfile.py)

    The repository's only source file is a recipe class, [AosCoreLibCpp],
    deriving from the package manager's [ConanFile].  It has two class
    attributes ([settings], [generators]) and two methods ([requirements],
    [configure]) that mutate [self] through the base class:
    [self.requires(ref)] records a requirement reference and
    [self.options[pkg].name = value] records an option value.

    The recipe object is embedded as a record, the two mutators of the base
    class as state-passing functions on it, and the two methods as the
    sequence of calls the source makes. *)

From Stdlib Require Import Ascii.
From stdpp Require Import gmap strings list fin_maps.

Local Open Scope string_scope.
Local Open Scope list_scope.

(** ** Data model *)

(** Values a recipe can give to an option.  The source only assigns the
    Python booleans [False] and [True]; strings are the other kind of value
    an option holds. *)
Inductive value : Type :=
  | VBool (b : bool)
  | VStr (s : string).

#[global] Instance value_eq_dec : EqDecision value.
Proof. solve_decision. Defined.

Definition is_bool (v : value) : bool :=
  match v with
  | VBool _ => true
  | VStr _ => false
  end.

(** The recipe object [self].  [settings] and [generators] are the class
    attributes (Python tuples of strings); [settings_values] are the values
    the tool binds to the platform axes from the build profile;
    [requires_list] is what [self.requires] has recorded so far, in call
    order; [options] is the per-package option table behind
    [self.options]. *)
Record ConanFile : Type := mkConanFile {
  settings : list string;
  generators : list string;
  settings_values : gmap string string;
  requires_list : list string;
  options : gmap string (gmap string value)
}.

(** The process a method runs in: the environment variables next to the
    recipe object.  A method receives [self] only. *)
Record World : Type := mkWorld {
  environ : gmap string string;
  recipe : ConanFile
}.

Definition invoke (method : ConanFile → ConanFile) (w : World) : World :=
  {| environ := environ w; recipe := method (recipe w) |}.

(** ** The base-class operations the recipe calls *)

(** [self.requires(ref)]: record the reference after those recorded
    before. *)
Definition requires (self : ConanFile) (ref : string) : ConanFile :=
  {| settings := settings self;
     generators := generators self;
     settings_values := settings_values self;
     requires_list := requires_list self ++ [ref];
     options := options self |}.

(** [self.options[pkg]]: the option table of package [pkg], empty when
    nothing was set for it yet. *)
Definition options_getitem (self : ConanFile) (pkg : string) : gmap string value :=
  default ∅ (options self !! pkg).

(** [self.options[pkg].name = v]. *)
Definition set_option (self : ConanFile) (pkg name : string) (v : value) : ConanFile :=
  {| settings := settings self;
     generators := generators self;
     settings_values := settings_values self;
     requires_list := requires_list self;
     options := <[pkg := <[name := v]> (options_getitem self pkg)]> (options self) |}.

(** [self.options[pkg].name], when it has been set. *)
Definition option_value (self : ConanFile) (pkg name : string) : option value :=
  options self !! pkg ≫= λ tbl, tbl !! name.

(** ** The recipe class *)

Module AosCoreLibCpp.

(** [settings = "os", "compiler", "build_type", "arch"] *)
Definition settings : list string := ["os"; "compiler"; "build_type"; "arch"].

(** [generators = "CMakeToolchain", "CMakeDeps"] *)
Definition generators : list string := ["CMakeToolchain"; "CMakeDeps"].

(** A freshly constructed recipe object: the class attributes, the axis
    values of the profile, nothing required and no option set. *)
Definition new (profile : gmap string string) : ConanFile :=
  mkConanFile settings generators profile [] ∅.

(** [def requirements(self)] *)
Definition requirements (self : ConanFile) : ConanFile :=
  let self := requires self "gtest/1.14.0" in
  requires self "openssl/3.2.1".

(** [def configure(self)] *)
Definition configure (self : ConanFile) : ConanFile :=
  let self := set_option self "openssl" "no_dso" (VBool false) in
  set_option self "openssl" "shared" (VBool true).

(** The arguments of the [self.requires] calls of [requirements], in
    source order. *)
Definition requires_calls : list string := ["gtest/1.14.0"; "openssl/3.2.1"].

(** The recipe as the tool reads it: constructed, configured, and asked
    for its requirements. *)
Definition manifest (profile : gmap string string) : ConanFile :=
  requirements (configure (new profile)).

End AosCoreLibCpp.

(** A process in the middle of a build, used to exercise the methods
    away from the fresh recipe: one requirement recorded, an option of
    another package set, one axis bound, one environment variable. *)
Definition busy_world : World :=
  mkWorld {[ "HOME" := "/root" ]}
    (mkConanFile AosCoreLibCpp.settings AosCoreLibCpp.generators
       {[ "os" := "Linux" ]} ["zlib/1.3.1"]
       {[ "gtest" := {[ "shared" := VBool false ]} ]}).

(** A recipe on which a user has already tuned [openssl]: an option the
    recipe never writes ([fPIC]) and one it does ([shared], here with the
    opposite value). *)
Definition tuned_recipe : ConanFile :=
  mkConanFile AosCoreLibCpp.settings AosCoreLibCpp.generators ∅ ["zlib/1.3.1"]
    {[ "openssl" := {[ "fPIC" := VBool true; "shared" := VBool false ]} ]}.

(** A recipe that requires [zlib] and sets an option of it. *)
Definition zlib_recipe : ConanFile :=
  set_option (requires (AosCoreLibCpp.new ∅) "zlib/1.3.1") "zlib" "shared" (VBool true).

(** ** Requirement references

    A reference handed to [self.requires] is the text [name/version].  The
    tool splits it at the first slash, as Python's [ref.split("/", 1)]
    followed by the unpacking [name, version = ...], which fails when the
    text has no slash. *)

Definition slash : ascii := "/"%char.
Definition dot : ascii := "."%char.

(** [s.split(sep, 1)] when [sep] occurs in [s]; [None] otherwise. *)
Fixpoint split_once (sep : ascii) (s : string) : option (string * string) :=
  match s with
  | EmptyString => None
  | String c rest =>
      if Ascii.eqb c sep then Some (EmptyString, rest)
      else match split_once sep rest with
           | Some (l, r) => Some (String c l, r)
           | None => None
           end
  end.

Definition parse_ref (ref : string) : option (string * string) :=
  split_once slash ref.

(** The (name, version) pairs of a recipe, in the order they were
    required; [None] when one of the references does not parse. *)
Definition declared_requirements (self : ConanFile) : option (list (string * string)) :=
  mapM parse_ref (requires_list self).

(** The same pairs as a finite set. *)
Definition requirement_set (self : ConanFile) : gset (string * string) :=
  list_to_set (omap parse_ref (requires_list self)).

(** The package names of a recipe's requirements. *)
Definition requirement_names (self : ConanFile) : list string :=
  (omap parse_ref (requires_list self)).*1.

(** What an invocation has appended to the recorded requirements. *)
Definition added_requires (before after : ConanFile) : list string :=
  drop (length (requires_list before)) (requires_list after).

(** The option table flattened to (package, option-name, value) triples. *)
Definition option_settings (self : ConanFile) : list (string * string * value) :=
  '(pkg, tbl) ← map_to_list (options self);
  (λ kv : string * value, (pkg, kv.1, kv.2)) <$> map_to_list tbl.

(** ** Version identifiers

    The syntactic notion of the specification: a dot-separated sequence of
    non-empty numeric components. *)

(** [s.split(sep)] of Python: the pieces between the separators, the empty
    ones included. *)
Fixpoint split_on (sep : ascii) (s : string) : list string :=
  match s with
  | EmptyString => [EmptyString]
  | String c rest =>
      if Ascii.eqb c sep then EmptyString :: split_on sep rest
      else match split_on sep rest with
           | piece :: pieces => String c piece :: pieces
           | [] => [String c EmptyString]
           end
  end.

Definition is_digit (c : ascii) : bool :=
  let n := nat_of_ascii c in (48 <=? n)%nat && (n <=? 57)%nat.

Fixpoint all_digits (s : string) : bool :=
  match s with
  | EmptyString => true
  | String c rest => is_digit c && all_digits rest
  end.

Definition numeric_component (s : string) : bool :=
  match s with
  | EmptyString => false
  | String _ _ => all_digits s
  end.

Definition valid_version (v : string) : bool :=
  forallb numeric_component (split_on dot v).

(** ** Sanity checks of the embedding on concrete inputs *)

Example parse_ref_gtest : parse_ref "gtest/1.14.0" = Some ("gtest", "1.14.0").
Proof. reflexivity. Qed.

Example parse_ref_no_slash : parse_ref "gtest" = None.
Proof. reflexivity. Qed.

Example parse_ref_first_slash : parse_ref "a/b/c" = Some ("a", "b/c").
Proof. reflexivity. Qed.

Example split_on_dots : split_on dot "1.14.0" = ["1"; "14"; "0"].
Proof. reflexivity. Qed.

Example valid_version_rejects_empty_component : valid_version "1..0" = false.
Proof. reflexivity. Qed.

Example valid_version_rejects_letters : valid_version "1.x" = false.
Proof. reflexivity. Qed.

Example valid_version_rejects_empty : valid_version "" = false.
Proof. reflexivity. Qed.

Example requirements_on_busy_recipe :
  requires_list (AosCoreLibCpp.requirements (recipe busy_world)) =
  ["zlib/1.3.1"; "gtest/1.14.0"; "openssl/3.2.1"].
Proof. reflexivity. Qed.

Example option_settings_configure :
  option_settings (AosCoreLibCpp.configure (AosCoreLibCpp.new ∅)) ≡ₚ
  [("openssl", "no_dso", VBool false); ("openssl", "shared", VBool true)].
Proof. vm_compute. reflexivity || apply Permutation_swap. Qed.

(** ** Equations of the two methods *)

Section Equations.

Variable self : ConanFile.

Lemma requires_list_requirements :
  requires_list (AosCoreLibCpp.requirements self) =
  requires_list self ++ AosCoreLibCpp.requires_calls.
Proof. unfold AosCoreLibCpp.requirements, requires; simpl. by rewrite <- app_assoc. Qed.

Lemma options_requirements : options (AosCoreLibCpp.requirements self) = options self.
Proof. reflexivity. Qed.


Lemma options_configure :
  options (AosCoreLibCpp.configure self) =
  <["openssl" := <["shared" := VBool true]>
                   (<["no_dso" := VBool false]> (options_getitem self "openssl"))]>
    (options self).
Proof.
  unfold AosCoreLibCpp.configure, set_option, options_getitem; simpl.
  by rewrite lookup_insert_eq, insert_insert_eq.
Qed.

Lemma requires_list_foldl (calls : list string) :
  requires_list (foldl requires self calls) = requires_list self ++ calls.
Proof.
  revert self. induction calls as [|ref calls IH]; intros s; simpl.
  - by rewrite app_nil_r.
  - rewrite IH. simpl. by rewrite <- app_assoc.
Qed.

Lemma requirements_foldl :
  AosCoreLibCpp.requirements self = foldl requires self AosCoreLibCpp.requires_calls.
Proof. reflexivity. Qed.

(** The two methods write disjoint parts of the recipe, so the order in
    which the tool calls them does not matter. *)
Lemma requirements_configure_comm :
  AosCoreLibCpp.requirements (AosCoreLibCpp.configure self) =
  AosCoreLibCpp.configure (AosCoreLibCpp.requirements self).
Proof. reflexivity. Qed.

End Equations.

Lemma requires_list_manifest (profile : gmap string string) :
  requires_list (AosCoreLibCpp.manifest profile) = AosCoreLibCpp.requires_calls.
Proof. reflexivity. Qed.

Lemma requirement_set_perm (l1 l2 : list string) (s : ConanFile) :
  l1 ≡ₚ l2 →
  requirement_set (foldl requires s l1) = requirement_set (foldl requires s l2).
Proof.
  intros Hp. unfold requirement_set. rewrite !requires_list_foldl.
  apply list_to_set_perm_L. by rewrite Hp.
Qed.

Lemma added_requires_requirements (self : ConanFile) :
  added_requires self (AosCoreLibCpp.requirements self) = AosCoreLibCpp.requires_calls.
Proof.
  unfold added_requires. rewrite requires_list_requirements.
  by rewrite drop_app_length.
Qed.

Lemma option_value_configure_no_dso (self : ConanFile) :
  option_value (AosCoreLibCpp.configure self) "openssl" "no_dso" = Some (VBool false).
Proof.
  unfold option_value. rewrite options_configure, lookup_insert_eq; simpl.
  by rewrite lookup_insert_ne, lookup_insert_eq.
Qed.

Lemma option_value_configure_shared (self : ConanFile) :
  option_value (AosCoreLibCpp.configure self) "openssl" "shared" = Some (VBool true).
Proof.
  unfold option_value. rewrite options_configure, lookup_insert_eq; simpl.
  by rewrite lookup_insert_eq.
Qed.

(** ** The declarations of the recipe *)

(** C1. [requirements] declares exactly two requirements, each a
    (name, version) pair with a pinned version: [gtest] at [1.14.0] and
    [openssl] at [3.2.1], and no others.  On a fresh recipe these are all
    the requirements; on any recipe they are exactly what the call adds. *)
Theorem requirements_declares_gtest_and_openssl (profile : gmap string string) :
  requires_list (AosCoreLibCpp.requirements (AosCoreLibCpp.new profile)) =
    ["gtest/1.14.0"; "openssl/3.2.1"] ∧
  declared_requirements (AosCoreLibCpp.requirements (AosCoreLibCpp.new profile)) =
    Some [("gtest", "1.14.0"); ("openssl", "3.2.1")] ∧
  length (requires_list (AosCoreLibCpp.requirements (AosCoreLibCpp.new profile))) = 2 ∧
  ∀ self : ConanFile,
    added_requires self (AosCoreLibCpp.requirements self) =
      ["gtest/1.14.0"; "openssl/3.2.1"].
Proof.
  repeat split. apply added_requires_requirements.
Qed.

(** C2. [configure] declares exactly two option overrides, both on the
    package [openssl] and both boolean: [no_dso] is set to [False] and
    [shared] to [True]. *)
Theorem configure_declares_two_openssl_overrides (profile : gmap string string) :
  options (AosCoreLibCpp.configure (AosCoreLibCpp.new profile)) =
    {[ "openssl" := {[ "no_dso" := VBool false; "shared" := VBool true ]} ]} ∧
  option_settings (AosCoreLibCpp.configure (AosCoreLibCpp.new profile)) ≡ₚ
    [("openssl", "no_dso", VBool false); ("openssl", "shared", VBool true)] ∧
  length (option_settings (AosCoreLibCpp.configure (AosCoreLibCpp.new profile))) = 2 ∧
  Forall (λ t : string * string * value, t.1.1 = "openssl" ∧ is_bool t.2 = true)
         (option_settings (AosCoreLibCpp.configure (AosCoreLibCpp.new profile))) ∧
  ∀ self : ConanFile,
    option_value (AosCoreLibCpp.configure self) "openssl" "no_dso" =
      Some (VBool false) ∧
    option_value (AosCoreLibCpp.configure self) "openssl" "shared" = Some (VBool true).
Proof.
  assert (Hopts : options (AosCoreLibCpp.configure (AosCoreLibCpp.new profile)) =
    {[ "openssl" := {[ "no_dso" := VBool false; "shared" := VBool true ]} ]}).
  { by vm_compute. }
  assert (Hset : option_settings (AosCoreLibCpp.configure (AosCoreLibCpp.new profile)) =
    [("openssl", "no_dso", VBool false); ("openssl", "shared", VBool true)] ∨
    option_settings (AosCoreLibCpp.configure (AosCoreLibCpp.new profile)) =
    [("openssl", "shared", VBool true); ("openssl", "no_dso", VBool false)]).
  { vm_compute. auto. }
  split; [exact Hopts|].
  split; [destruct Hset as [-> | ->]; [done | apply Permutation_swap]|].
  split; [by destruct Hset as [-> | ->]|].
  split; [destruct Hset as [-> | ->]; repeat constructor|].
  intros self. split.
  - apply option_value_configure_no_dso.
  - apply option_value_configure_shared.
Qed.

(** C3. In the manifest each dependency name is unique: no package name is
    declared by more than one requirement (and every recorded reference
    contributes its name). *)
Theorem manifest_requirement_names_unique (profile : gmap string string) :
  NoDup (requirement_names (AosCoreLibCpp.manifest profile)) ∧
  length (requirement_names (AosCoreLibCpp.manifest profile)) =
    length (requires_list (AosCoreLibCpp.manifest profile)) ∧
  NoDup (requirement_names (AosCoreLibCpp.requirements (AosCoreLibCpp.new profile))).
Proof.
  assert (Hn : requirement_names (AosCoreLibCpp.manifest profile) =
               ["gtest"; "openssl"]) by reflexivity.
  assert (Hd : NoDup ["gtest"; "openssl"]).
  { apply NoDup_cons; split; [|apply NoDup_singleton].
    intros Hin. apply list_elem_of_singleton in Hin. discriminate Hin. }
  split; [by rewrite Hn|]. split; [reflexivity|exact Hd].
Qed.

(** C4. Every package that receives an option override in [configure] is
    the name of a requirement declared by [requirements]. *)
Theorem configured_packages_are_required (profile : gmap string string) (pkg : string) :
  pkg ∈ dom (options (AosCoreLibCpp.configure (AosCoreLibCpp.new profile))) →
  pkg ∈ requirement_names (AosCoreLibCpp.requirements (AosCoreLibCpp.new profile)).
Proof.
  rewrite options_configure, dom_insert_L. simpl.
  rewrite dom_empty_L, elem_of_union, elem_of_singleton.
  intros [-> | Hin]; [|by apply not_elem_of_empty in Hin].
  change (requirement_names (AosCoreLibCpp.requirements (AosCoreLibCpp.new profile)))
    with ["gtest"; "openssl"].
  apply list_elem_of_further, list_elem_of_here.
Qed.

Lemma configured_packages_are_required_witness :
  "openssl" ∈ dom (options (AosCoreLibCpp.configure (AosCoreLibCpp.new ∅))) ∧
  "openssl" ∈ requirement_names (AosCoreLibCpp.requirements (AosCoreLibCpp.new ∅)).
Proof.
  assert (H : "openssl" ∈ dom (options (AosCoreLibCpp.configure (AosCoreLibCpp.new ∅)))).
  { apply elem_of_dom. eexists. vm_compute. reflexivity. }
  split; [exact H | exact (configured_packages_are_required ∅ "openssl" H)].
Defined.

(** C5. The recipe declares exactly four platform axes: [os], [compiler],
    [build_type] and [arch]; a recipe object carries them from
    construction on, and neither method changes them. *)
Theorem settings_are_the_four_platform_axes (profile : gmap string string) :
  AosCoreLibCpp.settings = ["os"; "compiler"; "build_type"; "arch"] ∧
  length AosCoreLibCpp.settings = 4 ∧
  settings (AosCoreLibCpp.new profile) = AosCoreLibCpp.settings ∧
  settings (AosCoreLibCpp.manifest profile) = AosCoreLibCpp.settings.
Proof. repeat split. Qed.

(** C6. The recipe selects exactly two generators: [CMakeToolchain] (the
    toolchain file) and [CMakeDeps] (the dependency-lookup files). *)
Theorem generators_are_toolchain_and_deps (profile : gmap string string) :
  AosCoreLibCpp.generators = ["CMakeToolchain"; "CMakeDeps"] ∧
  length AosCoreLibCpp.generators = 2 ∧
  generators (AosCoreLibCpp.new profile) = AosCoreLibCpp.generators ∧
  generators (AosCoreLibCpp.manifest profile) = AosCoreLibCpp.generators.
Proof. repeat split. Qed.

(** ** Order, syntax, frame and independence *)

(** C7. The requirements form an order-irrelevant set of (package,
    version) pairs: making the [requires] calls of [requirements] in any
    permuted order yields the same set as the method itself, which on a
    fresh recipe is {(gtest, 1.14.0), (openssl, 3.2.1)}. *)
Theorem requirement_set_order_irrelevant
    (profile : gmap string string) (self : ConanFile) (calls : list string) :
  calls ≡ₚ AosCoreLibCpp.requires_calls →
  requirement_set (foldl requires self calls) =
    requirement_set (AosCoreLibCpp.requirements self) ∧
  requirement_set (foldl requires (AosCoreLibCpp.new profile) calls) =
    {[ ("gtest", "1.14.0"); ("openssl", "3.2.1") ]}.
Proof.
  intros Hp. rewrite !requirements_foldl. split.
  - by apply requirement_set_perm.
  - rewrite (requirement_set_perm _ _ _ Hp).
    unfold requirement_set. rewrite requires_list_foldl. simpl.
    by rewrite (right_id_L ∅ (∪)).
Qed.

Lemma requirement_set_order_irrelevant_witness :
  ["openssl/3.2.1"; "gtest/1.14.0"] ≡ₚ AosCoreLibCpp.requires_calls ∧
  requirement_set
    (foldl requires (AosCoreLibCpp.new ∅) ["openssl/3.2.1"; "gtest/1.14.0"]) =
    {[ ("gtest", "1.14.0"); ("openssl", "3.2.1") ]}.
Proof.
  assert (H : ["openssl/3.2.1"; "gtest/1.14.0"] ≡ₚ AosCoreLibCpp.requires_calls)
    by apply Permutation_swap.
  split; [exact H|].
  exact (proj2 (requirement_set_order_irrelevant ∅ (AosCoreLibCpp.new ∅) _ H)).
Defined.

(** C8. Every version declared in a requirement is a syntactically valid
    version identifier: each recorded reference parses into a name and a
    version, and the version is a dot-separated sequence of non-empty
    numeric components. *)
Theorem declared_versions_are_valid (profile : gmap string string) :
  Forall (λ ref : string,
            ∃ name version : string,
              parse_ref ref = Some (name, version) ∧ valid_version version = true)
         (requires_list (AosCoreLibCpp.requirements (AosCoreLibCpp.new profile))) ∧
  (snd <$> omap parse_ref
     (requires_list (AosCoreLibCpp.requirements (AosCoreLibCpp.new profile)))) =
    ["1.14.0"; "3.2.1"] ∧
  valid_version "1.14.0" = true ∧ valid_version "3.2.1" = true.
Proof.
  split; [|by repeat split].
  repeat constructor.
  - by exists "gtest", "1.14.0".
  - by exists "openssl", "3.2.1".
Qed.

(** C9. The two methods have no effect beyond their declarations.
    [requirements] only appends to the recorded requirements and leaves the
    options alone; [configure] only writes options of [openssl] and leaves
    the requirements and the options of every other package alone.  Both
    leave the settings, their values, the generators and the process
    environment as they were. *)
Theorem requirements_configure_frame (w : World) (pkg : string) :
  pkg ≠ "openssl" →
  (requires_list (recipe w) `prefix_of`
     requires_list (recipe (invoke AosCoreLibCpp.requirements w)) ∧
   options (recipe (invoke AosCoreLibCpp.requirements w)) = options (recipe w)) ∧
  (requires_list (recipe (invoke AosCoreLibCpp.configure w)) =
     requires_list (recipe w) ∧
   options (recipe (invoke AosCoreLibCpp.configure w)) !! pkg =
     options (recipe w) !! pkg ∧
   delete "openssl" (options (recipe (invoke AosCoreLibCpp.configure w))) =
     delete "openssl" (options (recipe w))) ∧
  ∀ method,
    method = AosCoreLibCpp.requirements ∨ method = AosCoreLibCpp.configure →
    environ (invoke method w) = environ w ∧
    settings (recipe (invoke method w)) = settings (recipe w) ∧
    settings_values (recipe (invoke method w)) = settings_values (recipe w) ∧
    generators (recipe (invoke method w)) = generators (recipe w).
Proof.
  intros Hne. split; [|split].
  - split; [|reflexivity]. unfold invoke; cbn [recipe].
    rewrite requires_list_requirements. by apply prefix_app_r.
  - split; [reflexivity|]. unfold invoke; cbn [recipe].
    rewrite options_configure. split.
    + by rewrite lookup_insert_ne.
    + by rewrite delete_insert_eq.
  - by intros method [-> | ->].
Qed.

Lemma requirements_configure_frame_witness :
  "gtest" ≠ "openssl" ∧
  options (recipe (invoke AosCoreLibCpp.configure busy_world)) !! "gtest" =
    Some {[ "shared" := VBool false ]} ∧
  requires_list (recipe (invoke AosCoreLibCpp.configure busy_world)) = ["zlib/1.3.1"].
Proof.
  assert (H : "gtest" ≠ "openssl") by discriminate.
  split; [exact H|].
  destruct (requirements_configure_frame busy_world "gtest" H) as (_ & (Hr & Ho & _) & _).
  split; [rewrite Ho; by vm_compute | exact Hr].
Defined.



(** ** Further properties of the two methods *)

(** The record a call of [configure] returns, field by field. *)
Lemma configure_eq (self : ConanFile) :
  AosCoreLibCpp.configure self =
  mkConanFile (settings self) (generators self) (settings_values self)
    (requires_list self)
    (<["openssl" := <["shared" := VBool true]>
                     (<["no_dso" := VBool false]> (options_getitem self "openssl"))]>
       (options self)).
Proof.
  rewrite <- options_configure. by destruct self.
Qed.

Lemma options_getitem_set_option (self : ConanFile) (pkg name : string) (v : value) :
  options_getitem (set_option self pkg name v) pkg =
  <[name := v]> (options_getitem self pkg).
Proof. unfold options_getitem at 1, set_option; cbn [options]. by rewrite lookup_insert_eq. Qed.

(** Writing [shared] and [no_dso] last makes earlier writes of them
    invisible. *)
Lemma overrides_absorb (tbl : gmap string value) (v1 v2 : value) :
  <["shared" := VBool true]>
    (<["no_dso" := VBool false]> (<["shared" := v1]> (<["no_dso" := v2]> tbl))) =
  <["shared" := VBool true]> (<["no_dso" := VBool false]> tbl).
Proof.
  apply map_eq; intros k. rewrite !lookup_insert.
  repeat case_decide; done.
Qed.

Lemma requirement_names_requirements (self : ConanFile) :
  requirement_names (AosCoreLibCpp.requirements self) =
  requirement_names self ++ ["gtest"; "openssl"].
Proof.
  unfold requirement_names. rewrite requires_list_requirements.
  by rewrite omap_app, fmap_app.
Qed.

Lemma mapM_parse_ref_app (l k : list string) :
  mapM parse_ref (l ++ k) =
  pairs ← mapM parse_ref l; more ← mapM parse_ref k; Some (pairs ++ more).
Proof.
  induction l as [|ref l IH]; simpl.
  - by destruct (mapM parse_ref k).
  - destruct (parse_ref ref) as [p|]; simpl; [|done].
    rewrite IH. destruct (mapM parse_ref l); simpl; [|done].
    by destruct (mapM parse_ref k).
Qed.

(** X1. The two methods commute: the tool may call [configure] and
    [requirements] in either order and obtains the same recipe and the same
    process state. *)
Theorem requirements_configure_commute (w : World) :
  invoke AosCoreLibCpp.requirements (invoke AosCoreLibCpp.configure w) =
  invoke AosCoreLibCpp.configure (invoke AosCoreLibCpp.requirements w).
Proof.
  unfold invoke; cbn [recipe environ]. by rewrite requirements_configure_comm.
Qed.

(** X2. [configure] is idempotent: calling it again changes nothing. *)
Theorem configure_idempotent (self : ConanFile) :
  AosCoreLibCpp.configure (AosCoreLibCpp.configure self) = AosCoreLibCpp.configure self.
Proof.
  rewrite (configure_eq self). rewrite configure_eq.
  cbn [settings generators settings_values requires_list options].
  f_equal. unfold options_getitem at 1; cbn [options].
  rewrite lookup_insert_eq; cbn [default from_option id].
  by rewrite insert_insert_eq, overrides_absorb.
Qed.

(** X3. [configure] has the last word on the two options it writes: whatever
    value [shared] or [no_dso] of [openssl] had been given before, of either
    kind, the configured recipe is the same as if it had not been given. *)
Theorem configure_overrides_earlier_values (self : ConanFile) (v : value) :
  AosCoreLibCpp.configure (set_option self "openssl" "shared" v) =
    AosCoreLibCpp.configure self ∧
  AosCoreLibCpp.configure (set_option self "openssl" "no_dso" v) =
    AosCoreLibCpp.configure self.
Proof.
  rewrite !configure_eq, !options_getitem_set_option.
  cbn [set_option settings generators settings_values requires_list options].
  rewrite !insert_insert_eq.
  split; f_equal; f_equal; apply map_eq; intros k; rewrite !lookup_insert;
    repeat case_decide; done.
Qed.

(** X4. [configure] leaves every other option of [openssl] as it was: an
    option that is neither [no_dso] nor [shared] reads the same before and
    after. *)
Theorem configure_keeps_other_openssl_options (self : ConanFile) (name : string) :
  name ≠ "no_dso" → name ≠ "shared" →
  option_value (AosCoreLibCpp.configure self) "openssl" name =
  option_value self "openssl" name.
Proof.
  intros Hn Hs. unfold option_value.
  rewrite options_configure, lookup_insert_eq; simpl.
  rewrite !lookup_insert_ne by done.
  unfold options_getitem. destruct (options self !! "openssl"); simpl; [done|].
  apply lookup_empty.
Qed.

Lemma configure_keeps_other_openssl_options_witness :
  "fPIC" ≠ "no_dso" ∧ "fPIC" ≠ "shared" ∧
  option_value (AosCoreLibCpp.configure tuned_recipe) "openssl" "fPIC" =
    Some (VBool true).
Proof.
  assert (Hn : "fPIC" ≠ "no_dso") by discriminate.
  assert (Hs : "fPIC" ≠ "shared") by discriminate.
  split; [exact Hn|]. split; [exact Hs|].
  rewrite (configure_keeps_other_openssl_options tuned_recipe "fPIC" Hn Hs).
  by vm_compute.
Defined.

(** X5. After [configure] the option table has an entry for [openssl] next
    to the packages it had, and the table of [openssl] has [no_dso] and
    [shared] next to the options it had: nothing is removed. *)
Theorem configure_option_domains (self : ConanFile) :
  dom (options (AosCoreLibCpp.configure self)) = {[ "openssl" ]} ∪ dom (options self) ∧
  dom (options_getitem (AosCoreLibCpp.configure self) "openssl") =
    {[ "no_dso"; "shared" ]} ∪ dom (options_getitem self "openssl").
Proof.
  split.
  - rewrite options_configure. apply dom_insert_L.
  - unfold options_getitem at 1.
    rewrite options_configure, lookup_insert_eq; cbn [default from_option id].
    rewrite !dom_insert_L, (assoc_L (∪)).
    by rewrite (comm_L (∪) {[ "shared" ]}).
Qed.

(** X6. [requirements] keeps the names of the requirements unique, for a
    recipe whose names were unique and that required neither [gtest] nor
    [openssl] before. *)
Theorem requirements_keeps_names_unique (self : ConanFile) :
  NoDup (requirement_names self) →
  "gtest" ∉ requirement_names self →
  "openssl" ∉ requirement_names self →
  NoDup (requirement_names (AosCoreLibCpp.requirements self)).
Proof.
  intros Hnd Hg Ho. rewrite requirement_names_requirements.
  apply NoDup_app. split; [done|]. split.
  - intros x Hx Hin. apply elem_of_cons in Hin as [-> | Hin]; [done|].
    apply list_elem_of_singleton in Hin as ->. done.
  - apply NoDup_cons. split; [|apply NoDup_singleton].
    intros Hin. apply list_elem_of_singleton in Hin. discriminate Hin.
Qed.

Lemma requirements_keeps_names_unique_witness :
  NoDup (requirement_names (recipe busy_world)) ∧
  ("gtest" ∉ requirement_names (recipe busy_world)) ∧
  ("openssl" ∉ requirement_names (recipe busy_world)) ∧
  NoDup (requirement_names (AosCoreLibCpp.requirements (recipe busy_world))).
Proof.
  assert (Hnd : NoDup (requirement_names (recipe busy_world)))
    by (change (NoDup ["zlib"]); apply NoDup_singleton).
  assert (Hg : "gtest" ∉ requirement_names (recipe busy_world))
    by (change ("gtest" ∉ ["zlib"]); intros Hin;
        apply list_elem_of_singleton in Hin; discriminate Hin).
  assert (Ho : "openssl" ∉ requirement_names (recipe busy_world))
    by (change ("openssl" ∉ ["zlib"]); intros Hin;
        apply list_elem_of_singleton in Hin; discriminate Hin).
  split; [exact Hnd|]. split; [exact Hg|]. split; [exact Ho|].
  exact (requirements_keeps_names_unique (recipe busy_world) Hnd Hg Ho).
Defined.

(** X7. Parsing the requirements after [requirements]: when the references
    recorded before parse into pairs, the result is those pairs followed by
    (gtest, 1.14.0) and (openssl, 3.2.1); when one of them does not parse,
    the recipe still has no parse afterwards. *)
Theorem declared_requirements_requirements (self : ConanFile) :
  declared_requirements (AosCoreLibCpp.requirements self) =
  (λ pairs, pairs ++ [("gtest", "1.14.0"); ("openssl", "3.2.1")]) <$>
    declared_requirements self.
Proof.
  unfold declared_requirements.
  rewrite requires_list_requirements, mapM_parse_ref_app.
  by destruct (mapM parse_ref (requires_list self)).
Qed.

Example declared_requirements_unparsable_before :
  declared_requirements
    (AosCoreLibCpp.requirements (requires (AosCoreLibCpp.new ∅) "zlib")) = None.
Proof. reflexivity. Qed.

(** X8. As a set, the requirements after [requirements] are those before
    together with (gtest, 1.14.0) and (openssl, 3.2.1): none is dropped or
    replaced. *)
Theorem requirement_set_requirements (self : ConanFile) :
  requirement_set (AosCoreLibCpp.requirements self) =
  requirement_set self ∪ {[ ("gtest", "1.14.0"); ("openssl", "3.2.1") ]}.
Proof.
  unfold requirement_set.
  rewrite requires_list_requirements, omap_app, list_to_set_app_L.
  f_equal; simpl; by rewrite (right_id_L ∅ (∪)).
Qed.

(** X9. Options only on required packages: if every package with an option
    is required before, the same holds after [configure] followed by
    [requirements] (in either order), although [configure] writes options
    of [openssl]. *)
Theorem configured_packages_stay_required (self : ConanFile) :
  dom (options self) ⊆ list_to_set (requirement_names self) →
  dom (options (AosCoreLibCpp.requirements (AosCoreLibCpp.configure self))) ⊆
    list_to_set (requirement_names
                   (AosCoreLibCpp.requirements (AosCoreLibCpp.configure self))) ∧
  dom (options (AosCoreLibCpp.configure (AosCoreLibCpp.requirements self))) ⊆
    list_to_set (requirement_names
                   (AosCoreLibCpp.configure (AosCoreLibCpp.requirements self))).
Proof.
  intros Hsub. rewrite <- requirements_configure_comm. split.
  all: rewrite requirement_names_requirements, options_requirements.
  all: rewrite options_configure, dom_insert_L, list_to_set_app_L.
  all: change (requirement_names (AosCoreLibCpp.configure self))
         with (requirement_names self).
  all: intros pkg Hin; apply elem_of_union in Hin as [Hin | Hin].
  all: apply elem_of_union.
  all: try (right; apply elem_of_singleton in Hin as ->;
            apply elem_of_list_to_set, list_elem_of_further, list_elem_of_here).
  all: left; by apply Hsub.
Qed.

Lemma configured_packages_stay_required_witness :
  dom (options zlib_recipe) ⊆ list_to_set (requirement_names zlib_recipe) ∧
  dom (options (AosCoreLibCpp.requirements (AosCoreLibCpp.configure zlib_recipe))) ⊆
    list_to_set (requirement_names
                   (AosCoreLibCpp.requirements (AosCoreLibCpp.configure zlib_recipe))).
Proof.
  assert (H : dom (options zlib_recipe) ⊆
              (list_to_set (requirement_names zlib_recipe) : gset string)).
  { intros pkg Hin. change (requirement_names zlib_recipe) with ["zlib"].
    apply elem_of_list_to_set, list_elem_of_singleton.
    unfold zlib_recipe, set_option in Hin; cbn [options] in Hin.
    rewrite dom_insert_L in Hin. cbn [requires AosCoreLibCpp.new options] in Hin.
    rewrite dom_empty_L in Hin.
    apply elem_of_union in Hin as [Hin | Hin];
      [by apply elem_of_singleton in Hin | by apply not_elem_of_empty in Hin]. }
  split; [exact H|].
  exact (proj1 (configured_packages_stay_required zlib_recipe H)).
Defined.
